(** * AC phasor converter: the conversion and formatting core of
    [convert_form_app.py]

    The script's helpers ([to_rect], [to_polar], [complex_latex],
    [polar_latex], [wrap_angle]), the two branches of its
    "Inputs & Compute" part, the numeric summary and the plot annotation
    are embedded as Rocq functions.

    Number model.  A Python [float] is read as the real number it
    stands for, and [math.cos], [math.sin], [math.atan2], [math.hypot],
    [math.pi] as the functions and the constant of real analysis they
    approximate.  Rounding error, overflow, signed zeros, infinities and
    NaN are therefore outside that model; the decimal rounding that the
    code asks for explicitly (format specs [.pf], [round]) is inside.

    [wrap_angle], whose arithmetic is [+], [-] and [%] only, is embedded
    a second time on binary64 floats, bit for bit (module [Binary64]):
    there the rounding of the remainder decides what the code returns.
    The statements over the reals are kept to what the binary64 values
    satisfy as well, up to their last digits, or say where they do not:
    angle ranges are closed at both ends, and the sign of a zero is left
    open where the code can produce a negative zero. *)

From Stdlib Require Import Floats.
From Stdlib Require Import Reals Zfloor Lra Lia ZArith Bool List.
From Stdlib Require Import String Ascii DecimalString.
Import ListNotations.

Open Scope R_scope.

(** ** Python's numeric primitives, over the reals *)

Module Py.

(** [a % b] on floats, read over the reals: the remainder takes the
    sign of the divisor, [a - b * floor (a / b)].  It is then strictly
    below a positive divisor.  The binary64 remainder
    ([Binary64.float_mod]) is rounded and can be the divisor itself:
    [-2.84e-14 % 360] is [360.0]. *)
Definition float_mod (a b : R) : R := a - b * IZR (Zfloor (a / b)).

(** [math.radians] and [math.degrees]. *)
Definition radians (x : R) : R := x * (PI / 180).
Definition degrees (x : R) : R := x * (180 / PI).

(** [math.hypot]. *)
Definition hypot (x y : R) : R := sqrt (x * x + y * y).

(** [math.atan2 y x]: the angle of the point [(x, y)], with
    [atan2 0 0 = 0]. *)
Definition atan2 (y x : R) : R :=
  if Rlt_dec 0 x then atan (y / x)
  else if Rlt_dec x 0 then
    if Rle_dec 0 y then atan (y / x) + PI else atan (y / x) - PI
  else if Rlt_dec 0 y then PI / 2
  else if Rlt_dec y 0 then - (PI / 2)
  else 0.

(** Round half to even, to an integer: the rule of Python's decimal
    conversions. *)
Definition round_half_even (x : R) : Z :=
  let f := Zfloor x in
  let d := x - IZR f in
  if Rlt_dec d (1 / 2) then f
  else if Rlt_dec (1 / 2) d then (f + 1)%Z
  else if Z.even f then f else (f + 1)%Z.

(** [round(x, n)]. *)
Definition round (x : R) (n : nat) : R :=
  IZR (round_half_even (x * 10 ^ n)) / 10 ^ n.

End Py.

(** ** Python's [+], [-] and [%] on binary64 floats

    [float] is the kernel's binary64 type, with IEEE 754 addition,
    subtraction and multiplication rounded to nearest, ties to even. *)

Module Binary64.

(** C's [fmod] on the specification of a float: the remainder of the
    truncated division, with the sign of the dividend.  It is exact: the
    two mantissas are brought to the smaller exponent [e] and the integer
    remainder is taken. *)
Definition fmod_spec (x y : spec_float) : spec_float :=
  match x, y with
  | S754_nan, _ | _, S754_nan => S754_nan
  | S754_infinity _, _ => S754_nan
  | _, S754_zero _ => S754_nan
  | S754_zero _, _ => x
  | S754_finite _ _ _, S754_infinity _ => x
  | S754_finite sx mx ex, S754_finite _ my ey =>
      let e := Z.min ex ey in
      let r := Z.rem (Z.pos mx * 2 ^ (ex - e)) (Z.pos my * 2 ^ (ey - e)) in
      binary_normalize prec emax (if sx then (- r)%Z else r) e sx
  end.

Definition fmod (x y : float) : float :=
  SF2Prim (fmod_spec (Prim2SF x) (Prim2SF y)).

(** [a % b] on floats, as CPython computes it: [fmod], then the divisor
    is added when the remainder is not zero and its sign is not the
    divisor's; a zero remainder takes the sign of the divisor.  The
    divisor is not zero (the script's are [360] and [2 * math.pi]; on
    zero Python raises [ZeroDivisionError]). *)
Definition float_mod (a b : float) : float :=
  let m := fmod a b in
  if PrimFloat.eqb m 0 then (if PrimFloat.ltb b 0 then (-0)%float else 0%float)
  else if Bool.eqb (PrimFloat.ltb b 0) (PrimFloat.ltb m 0) then m
  else PrimFloat.add m b.

(** [math.pi], the float nearest to pi. *)
Definition pi : float := 0x1.921fb54442d18p+1%float.

(** Lines 36-42. *)
Definition wrap_angle (ang : float) (degrees : bool) : float :=
  if degrees then
    PrimFloat.sub (float_mod (PrimFloat.add ang 180) 360) 180
  else
    PrimFloat.sub (float_mod (PrimFloat.add ang pi) (PrimFloat.mul 2 pi)) pi.

End Binary64.

(** ** Helpers (lines 8-42 of the script), over the reals *)

Definition to_rect (mag ang : R) (degrees : bool) : R * R :=
  let theta := if degrees then Py.radians ang else ang in
  let x := mag * cos theta in
  let y := mag * sin theta in
  (x, y).

Definition to_polar (x y : R) (degrees : bool) : R * R :=
  let mag := Py.hypot x y in
  let ang := Py.atan2 y x in
  if degrees then (mag, Py.degrees ang) else (mag, ang).

Definition wrap_angle (ang : R) (degrees : bool) : R :=
  if degrees then Py.float_mod (ang + 180) 360 - 180
  else Py.float_mod (ang + PI) (2 * PI) - PI.

(** ** Fixed-point formatting: the format spec [.pf] *)

Open Scope string_scope.

Definition digit_char (d : Z) : ascii := ascii_of_nat (48 + Z.to_nat d).

(** The decimal numeral of a natural number, without leading zeros
    (["0"] for zero). *)
Definition int_digits (n : Z) : string :=
  NilZero.string_of_uint (N.to_uint (Z.to_N n)).

(** The [p] low decimal digits of [n], most significant first, padded
    with zeros. *)
Fixpoint frac_digits (p : nat) (n : Z) : string :=
  match p with
  | O => ""
  | S p' => frac_digits p' (n / 10) ++ String (digit_char (n mod 10)) ""
  end.

(** The numeral of [n / 10^p] with [p] decimals; no point when [p = 0]. *)
Definition fixed_numeral (n : Z) (p : nat) : string :=
  let scale := (10 ^ Z.of_nat p)%Z in
  match p with
  | O => int_digits n
  | S _ => int_digits (n / scale) ++ "." ++ frac_digits p (n mod scale)
  end.

(** [f"{x:.{p}f}"]: the sign of [x], then [|x|] rounded half-even to [p]
    decimals. *)
Definition format_f (x : R) (p : nat) : string :=
  let sign := if Rlt_dec x 0 then "-" else "" in
  sign ++ fixed_numeral (Py.round_half_even (Rabs x * 10 ^ p)) p.

Definition complex_latex (x y : R) (p : nat) : string :=
  let sign := if Rle_dec 0 y then "+" else "-" in
  "\displaystyle " ++ format_f x p ++ "\ " ++ sign ++ "\ j"
    ++ format_f (Rabs y) p.

Definition polar_latex (mag ang : R) (p : nat) (degrees : bool)
  : string * string :=
  let angle_tex :=
    if degrees then format_f ang p ++ "^\circ" else format_f ang p in
  let rect_arrow :=
    "\displaystyle " ++ format_f mag p ++ "\,\angle\," ++ angle_tex in
  let expo :=
    "\displaystyle " ++ format_f mag p ++ "\,e^{j\," ++ angle_tex ++ "}" in
  (rect_arrow, expo).

(** ** The script (lines 50-169)

    The page configuration, title and footer are constant and left out.
    What the script shows is kept as the sequence of its [st.*] calls. *)

(** [float(text)] raises [ValueError] on a text that is no number. *)
Inductive exn := ValueError.

Inductive result (A : Type) :=
| Ok (a : A)
| Raise (e : exn).
Arguments Ok {A} a.
Arguments Raise {A} e.

Inductive Mode := PolarToRectangular | RectangularToPolar.

(** The sidebar controls (lines 51-57). *)
Record Sidebar := {
  mode : Mode;
  deg : bool;
  precision : nat;
  show_plot : bool;
  wrap : bool
}.

(** [z = complex(x, y)]. *)
Record complex := Complex { real : R; imag : R }.

(** [abs(z)] and [np.angle(z)]. *)
Definition complex_abs (z : complex) : R := Py.hypot (real z) (imag z).
Definition np_angle (z : complex) : R := Py.atan2 (imag z) (real z).

(** What reaches [st.pyplot]: the arrow's end point, the axis limits and
    the annotation label. *)
Record Figure := {
  quiver : R * R;
  xlim : R * R;
  ylim : R * R;
  annotate : string
}.

Inductive ui_call :=
| St_subheader (s : string)
| St_warning (s : string)
| St_latex (s : string)
| St_write (d : list (string * R))
| St_pyplot (fig : Figure).

(** The script's variables after "Inputs & Compute". *)
Record Vars := {
  v_mag : R;
  v_ang : R;
  v_x : R;
  v_y : R;
  v_z : complex
}.

Section Script.

(** The builtin [float] on the text of an input field. *)
Variable py_float : string -> result R.

(** Lines 64-70: the magnitude field, with its warning. *)
Definition input_magnitude (text : string) : R * list ui_call :=
  match py_float text with
  | Ok mag =>
      (mag,
       if Rle_dec mag 0
       then [St_warning "Value error magnitude can be only positive"]
       else [])
  | Raise ValueError => (0, [])
  end.

(** Lines 74-78, 96-100, 102-106: a field read with [0.0] as the
    fallback. *)
Definition input_float (text : string) : R :=
  match py_float text with
  | Ok v => v
  | Raise ValueError => 0
  end.

(** Lines 60-90. *)
Definition polar_to_rectangular (sb : Sidebar) (mag_text ang_text : string)
  : Vars * list ui_call :=
  let '(mag, warning) := input_magnitude mag_text in
  let ang := input_float ang_text in
  let '(x, y) := to_rect mag ang (deg sb) in
  let z := Complex x y in
  let disp_ang := if wrap sb then wrap_angle ang (deg sb) else ang in
  let '(phasor_arrow, phasor_expo) :=
    polar_latex mag disp_ang (precision sb) (deg sb) in
  ({| v_mag := mag; v_ang := ang; v_x := x; v_y := y; v_z := z |},
   ([St_subheader "Input (Polar / Exponential)"] ++ warning ++
    [St_subheader "Result (Rectangular)";
     St_latex (complex_latex x y (precision sb));
     St_subheader "Also as Phasor";
     St_latex phasor_arrow;
     St_latex phasor_expo])%list).

(** Lines 92-119. *)
Definition rectangular_to_polar (sb : Sidebar) (x_text y_text : string)
  : Vars * list ui_call :=
  let x := input_float x_text in
  let y := input_float y_text in
  let '(mag, ang0) := to_polar x y (deg sb) in
  let ang := if wrap sb then wrap_angle ang0 (deg sb) else ang0 in
  let z := Complex x y in
  let '(phasor_arrow, phasor_expo) :=
    polar_latex mag ang (precision sb) (deg sb) in
  ({| v_mag := mag; v_ang := ang; v_x := x; v_y := y; v_z := z |},
   [St_subheader "Input (Rectangular)";
    St_subheader "Result (Polar / Exponential)";
    St_latex phasor_arrow;
    St_latex phasor_expo;
    St_subheader "Also as Rectangular";
    St_latex (complex_latex x y (precision sb))]).

Definition inputs_and_compute (sb : Sidebar) (text1 text2 : string)
  : Vars * list ui_call :=
  match mode sb with
  | PolarToRectangular => polar_to_rectangular sb text1 text2
  | RectangularToPolar => rectangular_to_polar sb text1 text2
  end.

(** Lines 128-130 and 154: [np.angle(z)] in the chosen unit.  Over the
    reals the angle is above minus half a turn; the binary64 [np.angle]
    returns [-pi] as well, for an imaginary part that is [-0.0] or
    negative and tiny against a negative real part, and
    [math.degrees] turns it into [-180.0]. *)
Definition angle_in_unit (sb : Sidebar) (z : complex) : R :=
  if deg sb then Py.degrees (np_angle z) else np_angle z.

(** Lines 122-132: the dictionary of "Show numeric values". *)
Definition numeric_values (sb : Sidebar) (z : complex)
  : list (string * R) :=
  let n := (precision sb + 2)%nat in
  [("real (x)", Py.round (real z) n);
   ("imag (y)", Py.round (imag z) n);
   ("magnitude (|z|)", Py.round (complex_abs z) n);
   ("angle (θ, " ++ (if deg sb then "deg" else "rad") ++ ")",
    Py.round (angle_in_unit sb z) n)].

(** Lines 153-158: the annotation of the plot. *)
Definition ang_disp (sb : Sidebar) (z : complex) : R :=
  let ang_plot := angle_in_unit sb z in
  if wrap sb then wrap_angle ang_plot (deg sb) else ang_plot.

Definition label_tex (sb : Sidebar) (z : complex) : string :=
  let mag_plot := complex_abs z in
  let angle_unit_tex := if deg sb then "^\circ" else "" in
  "$|z|=" ++ format_f mag_plot (precision sb) ++ ",\ \theta="
    ++ format_f (ang_disp sb z) (precision sb) ++ angle_unit_tex ++ "$".

(** Lines 135-169, for a [z] whose parts are far from the largest
    float: from about 1.49e308 on, [1.2 * max_abs] overflows to [inf],
    [ax.set_xlim] raises and [st.pyplot] is not reached.  Overflow is
    outside the number model, and nothing below states that a figure is
    drawn. *)
Definition phasor_plot (sb : Sidebar) (z : complex) : list ui_call :=
  if show_plot sb then
    let max_abs := Rmax 1 (Rmax (Rabs (real z)) (Rabs (imag z))) in
    [St_subheader "Phasor Plot";
     St_pyplot {| quiver := (real z, imag z);
                  xlim := (-1.2 * max_abs, 1.2 * max_abs);
                  ylim := (-1.2 * max_abs, 1.2 * max_abs);
                  annotate := label_tex sb z |}]
  else [].

(** One run of the script on the sidebar settings and the two texts. *)
Definition script (sb : Sidebar) (text1 text2 : string)
  : Vars * list ui_call :=
  let '(vars, shown) := inputs_and_compute sb text1 text2 in
  (vars,
   (shown ++ [St_write (numeric_values sb (v_z vars))]
          ++ phasor_plot sb (v_z vars))%list).

End Script.

(** ** Notions the statements use *)

(** The period of [wrap_angle] and half of it. *)
Definition half_period (degrees : bool) : R := if degrees then 180 else PI.

Definition is_digit (c : ascii) : bool :=
  let n := nat_of_ascii c in ((48 <=? n) && (n <=? 57))%nat.

Fixpoint all_chars (P : ascii -> bool) (s : string) : bool :=
  match s with
  | "" => true
  | String c s' => P c && all_chars P s'
  end.

(** A string of decimal digits only. *)
Definition all_digits : string -> bool := all_chars is_digit.

(** A string without the minus sign. *)
Definition minus_free : string -> bool :=
  all_chars (fun c => negb (Ascii.eqb c "-")).

(** A numeral with exactly [p] decimals: an optional minus sign, at least
    one digit, and, when [p] is positive, a point and [p] digits. *)
Definition fixed_point_numeral (p : nat) (s : string) : Prop :=
  exists sign int_part frac_part,
    s = sign ++ int_part
          ++ match p with O => "" | S _ => "." ++ frac_part end
    /\ (sign = "" \/ sign = "-")
    /\ int_part <> ""
    /\ all_digits int_part = true
    /\ all_digits frac_part = true
    /\ String.length frac_part = p.

(** The strings passed to [st.latex], the warnings and the dictionaries
    passed to [st.write], in the order of the calls. *)
Definition latex_shown (log : list ui_call) : list string :=
  flat_map (fun c => match c with St_latex s => [s] | _ => [] end) log.

Definition warnings_shown (log : list ui_call) : list string :=
  flat_map (fun c => match c with St_warning s => [s] | _ => [] end) log.

Definition written (log : list ui_call) : list (list (string * R)) :=
  flat_map (fun c => match c with St_write d => [d] | _ => [] end) log.

(** The angle shown by "Show numeric values": the fourth entry. *)
Definition summary_angle (d : list (string * R)) : R :=
  snd (nth 3 d ("", 0)).

(** The text of the warning of line 68. *)
Definition magnitude_warning : string :=
  "Value error magnitude can be only positive".

(** ** A reader of decimal literals

    [float] is a builtin of the language, so the script is parameterised
    by it.  [read_decimal] is one function it can stand for: it reads
    plain decimal literals (sign, digits, at most one point) and raises
    [ValueError] on every other text. *)

Definition digit_value (c : ascii) : option Z :=
  if is_digit c then Some (Z.of_nat (nat_of_ascii c) - 48)%Z else None.

Fixpoint scan_decimal (s : string) (m : Z) (digits : nat)
         (frac : option nat) : option (Z * nat) :=
  match s with
  | "" =>
      match digits with
      | O => None
      | S _ => Some (m, match frac with Some k => k | None => O end)
      end
  | String c s' =>
      match digit_value c with
      | Some d => scan_decimal s' (10 * m + d) (S digits) (option_map S frac)
      | None =>
          match frac with
          | None => if Ascii.eqb c "." then scan_decimal s' m digits (Some O)
                    else None
          | Some _ => None
          end
      end
  end.

Definition read_decimal (s : string) : result R :=
  let '(negative, body) :=
    match s with
    | String "-" s' => (true, s')
    | String "+" s' => (false, s')
    | _ => (false, s)
    end in
  match scan_decimal body 0 0 None with
  | Some (m, k) => Ok (IZR (if negative then - m else m) / 10 ^ k)
  | None => Raise ValueError
  end.

(** * Properties *)

Open Scope R_scope.

(** ** The remainder and the angle normalizer *)

Lemma float_mod_bounds (a b : R) :
  0 < b -> 0 <= Py.float_mod a b < b.
Proof.
  intros Hb. unfold Py.float_mod.
  pose proof (Zfloor_bound (a / b)) as [Hlo Hhi].
  assert (Hab : a = a / b * b) by (field; lra).
  set (q := a / b) in *. set (k := IZR (Zfloor q)) in *.
  rewrite Hab. split; nra.
Qed.


Lemma half_period_pos (degrees : bool) : 0 < half_period degrees.
Proof. destruct degrees; simpl; [lra | apply PI_RGT_0]. Qed.

Lemma wrap_angle_unfold (ang : R) (degrees : bool) :
  wrap_angle ang degrees =
  Py.float_mod (ang + half_period degrees) (2 * half_period degrees)
  - half_period degrees.
Proof.
  destruct degrees; simpl; [| reflexivity].
  replace (2 * 180) with 360 by lra. reflexivity.
Qed.

(** What the formula reaches over the reals: the interval closed below
    and open above.  (In binary64 the remainder can round up to the
    period, and the upper end is returned as well.) *)
Lemma wrap_angle_range (ang : R) (degrees : bool) :
  - half_period degrees <= wrap_angle ang degrees < half_period degrees.
Proof.
  rewrite wrap_angle_unfold.
  pose proof (half_period_pos degrees) as Hh.
  pose proof (float_mod_bounds (ang + half_period degrees)
                (2 * half_period degrees)) as Hm.
  lra.
Qed.


Lemma wrap_angle_at_half_period (degrees : bool) :
  wrap_angle (half_period degrees) degrees = - half_period degrees.
Proof.
  rewrite wrap_angle_unfold.
  pose proof (half_period_pos degrees) as Hh.
  unfold Py.float_mod.
  replace (Zfloor ((half_period degrees + half_period degrees)
                   / (2 * half_period degrees))) with 1%Z.
  - simpl. lra.
  - symmetry. apply Zfloor_eq.
    replace ((half_period degrees + half_period degrees)
             / (2 * half_period degrees)) with 1 by (field; lra).
    simpl. lra.
Qed.

Lemma wrap_angle_270 : wrap_angle 270 true = -90.
Proof.
  simpl. unfold Py.float_mod.
  replace (Zfloor ((270 + 180) / 360)) with 1%Z.
  - simpl. lra.
  - symmetry. apply Zfloor_eq. simpl. lra.
Qed.

(** C4. The specification and the docstring of [wrap_angle] put the
    wrapped angle in (-180, 180] (degrees) and (-pi, pi] (radians).  At
    an angle of half a period the code returns minus half a period, the
    end those intervals exclude: [wrap_angle 180] is [-180] in degrees
    and [wrap_angle PI] is [-PI] in radians.  What the formula reaches
    over the reals is [-180, 180) and [-pi, pi) ([wrap_angle_range]); the
    scenario [wrap(270, degrees) = -90] holds ([wrap_angle_270]). *)
Theorem wrap_angle_leaves_claimed_interval :
  wrap_angle 180 true = -180 /\
  ~ (-180 < wrap_angle 180 true <= 180) /\
  wrap_angle PI false = - PI /\
  ~ (- PI < wrap_angle PI false <= PI).
Proof.
  pose proof (wrap_angle_at_half_period true) as Hd.
  pose proof (wrap_angle_at_half_period false) as Hr.
  simpl half_period in Hd, Hr.
  rewrite Hd, Hr. repeat split; lra.
Qed.

(** C5. Wrapping twice is not wrapping once.  The float just below
    -180, which is what the text "-180.00000000000003" denotes, plus 180
    is a tiny negative number; its remainder modulo 360 rounds to 360.0,
    the divisor itself, so [wrap_angle] returns 180.0.  Wrapping 180.0
    returns -180.0, the end that the docstring's interval (-180, 180]
    excludes (C4): the two results differ, also under [==].  The same
    happens in radians at the float just below [-math.pi]. *)
Theorem wrap_angle_not_idempotent :
  let a := (-0x1.6800000000001p+7)%float in
  let b := (-0x1.921fb54442d19p+1)%float in
  (a = PrimFloat.next_down (-180)%float /\
   Binary64.float_mod (PrimFloat.add a 180) 360 = 360%float /\
   Binary64.wrap_angle a true = 180%float /\
   Binary64.wrap_angle (Binary64.wrap_angle a true) true = (-180)%float /\
   PrimFloat.eqb (Binary64.wrap_angle (Binary64.wrap_angle a true) true)
                 (Binary64.wrap_angle a true) = false) /\
  (b = PrimFloat.next_down (PrimFloat.opp Binary64.pi) /\
   Binary64.wrap_angle b false = Binary64.pi /\
   Binary64.wrap_angle (Binary64.wrap_angle b false) false
   = PrimFloat.opp Binary64.pi /\
   PrimFloat.eqb (Binary64.wrap_angle (Binary64.wrap_angle b false) false)
                 (Binary64.wrap_angle b false) = false).
Proof. vm_compute. repeat split. Qed.

Lemma atan_nonpos (t : R) : t <= 0 -> atan t <= 0.
Proof.
  intros [Ht | Ht].
  - left. rewrite <- atan_0. now apply atan_increasing.
  - subst t. rewrite atan_0. lra.
Qed.

Lemma atan_pos (t : R) : 0 < t -> 0 < atan t.
Proof. intros Ht. rewrite <- atan_0. now apply atan_increasing. Qed.

Lemma div_neg_nonneg (y x : R) : x < 0 -> 0 <= y -> y / x <= 0.
Proof.
  intros Hx Hy. unfold Rdiv.
  pose proof (Rinv_lt_0_compat x Hx). nra.
Qed.

Lemma div_neg_neg (y x : R) : x < 0 -> y < 0 -> 0 < y / x.
Proof.
  intros Hx Hy. unfold Rdiv.
  pose proof (Rinv_lt_0_compat x Hx). nra.
Qed.

(** The angle of [atan2] is the principal one. *)
Lemma atan2_range (y x : R) : - PI < Py.atan2 y x <= PI.
Proof.
  pose proof PI_RGT_0 as Hpi.
  pose proof (atan_bound (y / x)) as Hb.
  unfold Py.atan2.
  destruct (Rlt_dec 0 x) as [Hx | Hx]; [lra |].
  destruct (Rlt_dec x 0) as [Hx' | Hx'].
  - destruct (Rle_dec 0 y) as [Hy | Hy].
    + pose proof (atan_nonpos _ (div_neg_nonneg y x Hx' Hy)). lra.
    + assert (Hy' : y < 0) by lra.
      pose proof (atan_pos _ (div_neg_neg y x Hx' Hy')). lra.
  - destruct (Rlt_dec 0 y); [lra |].
    destruct (Rlt_dec y 0); lra.
Qed.

Lemma atan2_0_0 : Py.atan2 0 0 = 0.
Proof.
  unfold Py.atan2.
  destruct (Rlt_dec 0 0) as [H | _]; [lra |]. reflexivity.
Qed.

Lemma hypot_0_0 : Py.hypot 0 0 = 0.
Proof.
  unfold Py.hypot. replace (0 * 0 + 0 * 0) with 0 by lra. apply sqrt_0.
Qed.

Lemma hypot_nonneg (x y : R) : 0 <= Py.hypot x y.
Proof. apply sqrt_pos. Qed.

(** [atan] moves no faster than its argument. *)
Lemma atan_lipschitz (a b : R) : Rabs (atan b - atan a) <= Rabs (b - a).
Proof.
  destruct (MVT_abs atan (fun c => / (1 + c ^ 2)) a b) as [c [Hc _]].
  - intros c _. apply derivable_pt_lim_atan.
  - rewrite Hc.
    assert (H1 : 0 < / (1 + c ^ 2) <= 1).
    { assert (Hp : 1 <= 1 + c ^ 2) by (pose proof (pow2_ge_0 c); lra).
      split.
      - apply Rinv_0_lt_compat. lra.
      - rewrite <- Rinv_1. apply Rinv_le_contravar; lra. }
    rewrite (Rabs_pos_eq (/ (1 + c ^ 2))) by lra.
    pose proof (Rabs_pos (b - a)). nra.
Qed.

Lemma sqrt3_bounds : 1.732050807 < sqrt 3 < 1.732050808.
Proof.
  pose proof (sqrt_pos 3) as Hp.
  pose proof (sqrt_sqrt 3) as Hs.
  assert (H3 : 0 <= 3) by lra. specialize (Hs H3).
  split; nra.
Qed.

(** A radian is less than 60 degrees. *)
Lemma degrees_per_radian : 0 < 180 / PI < 60.
Proof.
  pose proof PI2_3_2. pose proof PI_RGT_0.
  split.
  - apply Rdiv_lt_0_compat; lra.
  - apply Rmult_lt_reg_r with PI; [lra |].
    unfold Rdiv. rewrite Rmult_assoc, Rinv_l by lra. lra.
Qed.

Lemma radians_30 : Py.radians 30 = PI / 6.
Proof. unfold Py.radians. lra. Qed.

Lemma degrees_radians (a : R) : Py.degrees (Py.radians a) = a.
Proof.
  unfold Py.degrees, Py.radians. pose proof PI_RGT_0. field. lra.
Qed.

Lemma radians_degrees (a : R) : Py.radians (Py.degrees a) = a.
Proof.
  unfold Py.degrees, Py.radians. pose proof PI_RGT_0. field. lra.
Qed.

(** C2. [to_rect] turns the angle into radians when it is given in
    degrees and leaves it as it is otherwise, and returns
    [mag * cos theta] and [mag * sin theta]; for magnitude 5 and 30
    degrees that is 4.330... and 2.5. *)
Theorem to_rect_spec :
  (forall mag ang degrees,
      let theta := if degrees : bool then ang * (PI / 180) else ang in
      to_rect mag ang degrees = (mag * cos theta, mag * sin theta)) /\
  (4.330 < fst (to_rect 5 30 true) < 4.331 /\
   snd (to_rect 5 30 true) = 2.5).
Proof.
  split.
  - intros mag ang [|]; reflexivity.
  - unfold to_rect. rewrite radians_30, cos_PI6, sin_PI6. simpl.
    pose proof sqrt3_bounds. lra.
Qed.

Lemma atan_inv_sqrt3 : atan (1 / sqrt 3) = PI / 6.
Proof.
  rewrite <- tan_PI6. apply atan_tan.
  pose proof PI_RGT_0. lra.
Qed.

Lemma atan2_right_half (y x : R) : 0 < x -> Py.atan2 y x = atan (y / x).
Proof.
  intros Hx. unfold Py.atan2.
  destruct (Rlt_dec 0 x); [reflexivity | lra].
Qed.

Lemma scenario_B_magnitude : Rabs (Py.hypot 4.330127 2.5 - 5) < 1 / 10 ^ 7.
Proof.
  unfold Py.hypot.
  remember (4.330127 * 4.330127 + 2.5 * 2.5) as s eqn:Es.
  assert (Hs : 24.9999998 < s < 25) by lra.
  pose proof (sqrt_pos s) as Hp.
  assert (Hq : sqrt s * sqrt s = s) by (apply sqrt_sqrt; lra).
  clear Es. apply Rabs_def1; nra.
Qed.

Lemma scenario_B_angle :
  Rabs (Py.degrees (Py.atan2 2.5 4.330127) - 30) < 1 / 10 ^ 5.
Proof.
  rewrite atan2_right_half by lra.
  pose proof (atan_lipschitz (1 / sqrt 3) (2.5 / 4.330127)) as HL.
  rewrite atan_inv_sqrt3 in HL.
  assert (Hq : Rabs (2.5 / 4.330127 - 1 / sqrt 3) < 1 / 10 ^ 7).
  { pose proof sqrt3_bounds as [Hlo Hhi].
    assert (Ht : 0 < / sqrt 3) by (apply Rinv_0_lt_compat; lra).
    assert (Hts : / sqrt 3 * sqrt 3 = 1) by (apply Rinv_l; lra).
    replace (1 / sqrt 3) with (/ sqrt 3) by (unfold Rdiv; ring).
    set (t := / sqrt 3) in *.
    assert (Ht' : 0.57735026 < t < 0.57735027).
    { split; apply Rnot_le_lt; intros Hc.
      - assert (t * sqrt 3 <= 0.57735026 * 1.732050808)
          by (apply Rmult_le_compat; lra).
        lra.
      - assert (0.57735027 * 1.732050807 <= t * sqrt 3)
          by (apply Rmult_le_compat; lra).
        lra. }
    assert (Hq' : 0.577350271 < 2.5 / 4.330127 < 0.577350272) by lra.
    apply Rabs_def1; lra. }
  set (d := atan (2.5 / 4.330127) - PI / 6) in *.
  assert (Hd : Rabs d < 1 / 10 ^ 7) by lra.
  replace (Py.degrees (atan (2.5 / 4.330127)) - 30) with (d * (180 / PI)).
  2:{ unfold d, Py.degrees. pose proof PI_RGT_0. field. lra. }
  rewrite Rabs_mult.
  pose proof degrees_per_radian as Hpi.
  rewrite (Rabs_pos_eq (180 / PI)) by lra.
  pose proof (Rabs_pos d). nra.
Qed.

(** C3. [to_polar] returns the magnitude [hypot(real, imag)] and the angle
    [atan2(imag, real)], which lies in (-pi, pi], turned into degrees when
    degrees are asked for; [to_polar(4.330127, 2.5)] is about 5 and about
    30 degrees, and [to_polar(0, 0)] is magnitude 0 with angle 0. *)
Theorem to_polar_spec :
  (forall x y degrees,
      to_polar x y degrees =
      (Py.hypot x y,
       if degrees : bool then Py.atan2 y x * (180 / PI) else Py.atan2 y x)
      /\ Py.hypot x y = sqrt (x * x + y * y)
      /\ - PI < Py.atan2 y x <= PI) /\
  (Rabs (fst (to_polar 4.330127 2.5 true) - 5) < 1 / 10 ^ 7 /\
   Rabs (snd (to_polar 4.330127 2.5 true) - 30) < 1 / 10 ^ 5) /\
  (forall degrees, to_polar 0 0 degrees = (0, 0)).
Proof.
  split; [| split].
  - intros x y degrees. split; [| split].
    + destruct degrees; reflexivity.
    + reflexivity.
    + apply atan2_range.
  - split; simpl.
    + apply scenario_B_magnitude.
    + apply scenario_B_angle.
  - intros [|]; unfold to_polar; rewrite hypot_0_0, atan2_0_0.
    + unfold Py.degrees. f_equal. lra.
    + reflexivity.
Qed.

(** [atan2] gives back the point: with the magnitude of [hypot], its
    cosine and sine are the two coordinates. *)
Lemma hypot_factor (x y : R) :
  x <> 0 -> Py.hypot x y = Rabs x * sqrt (1 + (y / x)²).
Proof.
  intros Hx. unfold Py.hypot.
  rewrite <- sqrt_Rsqr_abs, <- sqrt_mult.
  - f_equal. unfold Rsqr. field. exact Hx.
  - apply Rle_0_sqr.
  - pose proof (Rle_0_sqr (y / x)). lra.
Qed.

Lemma sqrt_1_plus_sqr_pos (t : R) : 0 < sqrt (1 + t²).
Proof. apply sqrt_lt_R0. pose proof (Rle_0_sqr t). lra. Qed.

Lemma cos_sin_shift_PI (a : R) :
  (cos (a + PI) = - cos a /\ sin (a + PI) = - sin a) /\
  (cos (a - PI) = - cos a /\ sin (a - PI) = - sin a).
Proof.
  repeat split.
  - apply neg_cos.
  - apply neg_sin.
  - rewrite cos_minus, cos_PI, sin_PI. ring.
  - rewrite sin_minus, cos_PI, sin_PI. ring.
Qed.

Lemma hypot_atan2 (x y : R) :
  Py.hypot x y * cos (Py.atan2 y x) = x /\
  Py.hypot x y * sin (Py.atan2 y x) = y.
Proof.
  destruct (Req_dec x 0) as [Hx0 | Hx0].
  - subst x. unfold Py.atan2, Py.hypot.
    destruct (Rlt_dec 0 0) as [H | _]; [lra |].
    destruct (Rlt_dec 0 0) as [H | _]; [lra |].
    replace (0 * 0 + y * y) with (Rsqr y) by (unfold Rsqr; ring).
    rewrite sqrt_Rsqr_abs.
    destruct (Rlt_dec 0 y) as [Hy | Hy].
    + rewrite cos_PI2, sin_PI2, Rabs_pos_eq by lra. lra.
    + destruct (Rlt_dec y 0) as [Hy' | Hy'].
      * rewrite cos_neg, sin_neg, cos_PI2, sin_PI2, Rabs_left by lra. lra.
      * assert (y = 0) by lra. subst y.
        rewrite Rabs_R0. lra.
  - rewrite (hypot_factor x y Hx0).
    pose proof (sqrt_1_plus_sqr_pos (y / x)) as Hs.
    pose proof (cos_atan (y / x)) as Hc.
    pose proof (sin_atan (y / x)) as Hsn.
    destruct (cos_sin_shift_PI (atan (y / x)))
      as [[Hcp Hsp] [Hcm Hsm]].
    unfold Py.atan2.
    destruct (Rlt_dec 0 x) as [Hx | Hx].
    + rewrite Hc, Hsn, Rabs_pos_eq by lra. split; field; lra.
    + assert (Hneg : x < 0) by lra.
      destruct (Rlt_dec x 0) as [_ | H]; [| lra].
      rewrite (Rabs_left x) by lra.
      destruct (Rle_dec 0 y).
      * rewrite Hcp, Hsp, Hc, Hsn. split; field; lra.
      * rewrite Hcm, Hsm, Hc, Hsn. split; field; lra.
Qed.

(** X10. Over the reals [to_rect] undoes [to_polar] exactly, in both
    units; how far the rounded [float] functions stay from that is not
    modelled. *)
Lemma to_rect_to_polar (x y : R) (degrees : bool) :
  to_rect (fst (to_polar x y degrees)) (snd (to_polar x y degrees)) degrees
  = (x, y).
Proof.
  destruct (hypot_atan2 x y) as [Hc Hs].
  unfold to_rect, to_polar.
  destruct degrees; simpl; rewrite ?radians_degrees, Hc, Hs; reflexivity.
Qed.

(** ** Decimal rounding *)

Lemma round_half_even_near (x : R) (k : Z) :
  IZR k - 1 / 2 < x < IZR k + 1 / 2 -> Py.round_half_even x = k.
Proof.
  intros [Hlo Hhi]. unfold Py.round_half_even.
  pose proof (Zfloor_bound x) as [Hf1 Hf2].
  destruct (Rlt_dec (x - IZR (Zfloor x)) (1 / 2)) as [Hd | Hd].
  - apply Zfloor_eq. split; [| lra].
    assert (Hk : IZR k < IZR (Zfloor x) + 1) by lra.
    rewrite <- plus_IZR in Hk. apply lt_IZR in Hk.
    apply Rle_trans with (IZR (Zfloor x)); [apply IZR_le; lia | lra].
  - destruct (Rlt_dec (1 / 2) (x - IZR (Zfloor x))) as [Hd' | Hd'].
    + assert (Hk : IZR (Zfloor x) < IZR k) by lra.
      apply lt_IZR in Hk.
      assert (Hk' : IZR k < IZR (Zfloor x) + 2) by lra.
      replace 2 with (IZR 2) in Hk' by reflexivity.
      rewrite <- plus_IZR in Hk'. apply lt_IZR in Hk'. lia.
    + exfalso.
      assert (Hx : x = IZR (Zfloor x) + 1 / 2) by lra.
      assert (H1 : IZR k - 1 < IZR (Zfloor x)) by lra.
      assert (H2 : IZR (Zfloor x) < IZR k) by lra.
      replace 1 with (IZR 1) in H1 by reflexivity.
      rewrite <- minus_IZR in H1.
      apply lt_IZR in H1. apply lt_IZR in H2. lia.
Qed.

Lemma round_half_even_IZR (k : Z) : Py.round_half_even (IZR k) = k.
Proof. apply round_half_even_near. lra. Qed.

Lemma round_IZR (k : Z) (n : nat) : Py.round (IZR k) n = IZR k.
Proof.
  unfold Py.round.
  rewrite pow_IZR, <- mult_IZR, round_half_even_IZR, mult_IZR.
  field. apply not_0_IZR. apply Z.pow_nonzero; lia.
Qed.

Lemma round_half_even_error (x : R) :
  Rabs (IZR (Py.round_half_even x) - x) <= 1 / 2.
Proof.
  unfold Py.round_half_even.
  pose proof (Zfloor_bound x) as [Hlo Hhi].
  destruct (Rlt_dec (x - IZR (Zfloor x)) (1 / 2)).
  - apply Rabs_le. lra.
  - assert (Hn : Rabs (IZR (Zfloor x + 1) - x) <= 1 / 2)
      by (rewrite plus_IZR; apply Rabs_le; simpl; lra).
    destruct (Rlt_dec (1 / 2) (x - IZR (Zfloor x))); [exact Hn |].
    destruct (Z.even (Zfloor x)); [apply Rabs_le; lra | exact Hn].
Qed.

Lemma round_error (x : R) (n : nat) :
  Rabs (Py.round x n - x) <= 1 / 2 / 10 ^ n.
Proof.
  unfold Py.round.
  assert (Hp : 0 < 10 ^ n) by (apply pow_lt; lra).
  pose proof (round_half_even_error (x * 10 ^ n)) as He.
  set (k := IZR (Py.round_half_even (x * 10 ^ n))) in *.
  replace (k / 10 ^ n - x) with ((k - x * 10 ^ n) / 10 ^ n)
    by (field; lra).
  unfold Rdiv at 1. rewrite Rabs_mult, (Rabs_pos_eq (/ 10 ^ n)).
  - unfold Rdiv. apply Rmult_le_compat_r; [| exact He].
    left. apply Rinv_0_lt_compat. exact Hp.
  - left. apply Rinv_0_lt_compat. exact Hp.
Qed.

(** ** Strings of digits *)

Open Scope string_scope.

Lemma string_app_assoc (a b c : string) : (a ++ b) ++ c = a ++ (b ++ c).
Proof. induction a as [| ch a IH]; simpl; [| rewrite IH]; reflexivity. Qed.

Lemma string_app_nil_r (a : string) : a ++ "" = a.
Proof. induction a as [| ch a IH]; simpl; [| rewrite IH]; reflexivity. Qed.

Lemma string_app_length (a b : string) :
  String.length (a ++ b) = (String.length a + String.length b)%nat.
Proof. induction a as [| ch a IH]; simpl; [| rewrite IH]; reflexivity. Qed.

Lemma all_chars_app (P : ascii -> bool) (a b : string) :
  all_chars P (a ++ b) = all_chars P a && all_chars P b.
Proof.
  induction a as [| ch a IH]; simpl; [reflexivity |].
  rewrite IH, andb_assoc. reflexivity.
Qed.

Lemma all_chars_weaken (P Q : ascii -> bool) (s : string) :
  (forall c, P c = true -> Q c = true) ->
  all_chars P s = true -> all_chars Q s = true.
Proof.
  intros HPQ. induction s as [| ch s IH]; simpl; [reflexivity |].
  intros H. apply andb_prop in H as [H1 H2].
  rewrite (HPQ _ H1), (IH H2). reflexivity.
Qed.

Lemma is_digit_not_minus (c : ascii) :
  is_digit c = true -> negb (Ascii.eqb c "-") = true.
Proof.
  intros H. destruct (Ascii.eqb_spec c "-") as [-> | _]; [| reflexivity].
  vm_compute in H. discriminate H.
Qed.

Lemma all_digits_minus_free (s : string) :
  all_digits s = true -> minus_free s = true.
Proof. apply all_chars_weaken, is_digit_not_minus. Qed.

Lemma is_digit_digit_char (d : Z) :
  (0 <= d < 10)%Z -> is_digit (digit_char d) = true.
Proof.
  intros H.
  assert (Hd : (d = 0 \/ d = 1 \/ d = 2 \/ d = 3 \/ d = 4 \/ d = 5 \/
                d = 6 \/ d = 7 \/ d = 8 \/ d = 9)%Z) by lia.
  repeat (destruct Hd as [Hd | Hd]; [subst d; vm_compute; reflexivity |]).
  subst d. vm_compute. reflexivity.
Qed.

Lemma all_digits_string_of_uint (d : Decimal.uint) :
  all_digits (NilEmpty.string_of_uint d) = true.
Proof. induction d; simpl; auto. Qed.

Lemma int_digits_spec (n : Z) :
  all_digits (int_digits n) = true /\ int_digits n <> "".
Proof.
  unfold int_digits, NilZero.string_of_uint.
  destruct (N.to_uint (Z.to_N n)) as [| u | u | u | u | u | u | u | u | u | u];
    (split; [try apply all_digits_string_of_uint | simpl; discriminate]).
  reflexivity.
Qed.

Lemma frac_digits_spec (p : nat) (n : Z) :
  all_digits (frac_digits p n) = true /\
  String.length (frac_digits p n) = p.
Proof.
  revert n. induction p as [| p IH]; intros n; cbn [frac_digits].
  - split; reflexivity.
  - destruct (IH (n / 10)%Z) as [Hd Hl]. split.
    + unfold all_digits in *. rewrite all_chars_app, Hd.
      cbn [all_chars andb].
      rewrite is_digit_digit_char; [reflexivity |].
      apply Z.mod_pos_bound. lia.
    + rewrite string_app_length, Hl. cbn [String.length]. lia.
Qed.

(** ** The renderers *)

Lemma fixed_numeral_shape (n : Z) (p : nat) :
  exists int_part frac_part,
    fixed_numeral n p =
      int_part ++ match p with O => "" | S _ => "." ++ frac_part end
    /\ int_part <> ""
    /\ all_digits int_part = true
    /\ all_digits frac_part = true
    /\ String.length frac_part = p.
Proof.
  unfold fixed_numeral. destruct p as [| p].
  - exists (int_digits n), "".
    destruct (int_digits_spec n) as [Hd Hn].
    rewrite string_app_nil_r. repeat split; auto.
  - set (scale := (10 ^ Z.of_nat (S p))%Z).
    exists (int_digits (n / scale)), (frac_digits (S p) (n mod scale)).
    destruct (int_digits_spec (n / scale)) as [Hd Hn].
    destruct (frac_digits_spec (S p) (n mod scale)) as [Hf Hl].
    repeat split; auto.
Qed.

Lemma format_f_shape (x : R) (p : nat) :
  fixed_point_numeral p (format_f x p).
Proof.
  unfold format_f.
  destruct (fixed_numeral_shape
              (Py.round_half_even (Rabs x * 10 ^ p)) p)
    as (ip & fp & E & H1 & H2 & H3 & H4).
  exists (if Rlt_dec x 0 then "-" else ""), ip, fp.
  rewrite E. repeat split; auto.
  destruct (Rlt_dec x 0); auto.
Qed.

Lemma fixed_numeral_minus_free (n : Z) (p : nat) :
  minus_free (fixed_numeral n p) = true.
Proof.
  destruct (fixed_numeral_shape n p) as (ip & fp & E & _ & H2 & H3 & _).
  rewrite E. unfold minus_free.
  apply all_digits_minus_free in H2, H3. unfold minus_free in H2, H3.
  destruct p; rewrite !all_chars_app, ?H2; simpl; [reflexivity |].
  exact H3.
Qed.

Lemma format_f_nonneg (x : R) (p : nat) :
  0 <= x ->
  format_f x p = fixed_numeral (Py.round_half_even (x * 10 ^ p)) p.
Proof.
  intros Hx. unfold format_f.
  destruct (Rlt_dec x 0) as [H | _]; [lra |].
  rewrite Rabs_pos_eq by exact Hx. reflexivity.
Qed.

Lemma format_f_abs_minus_free (y : R) (p : nat) :
  minus_free (format_f (Rabs y) p) = true.
Proof.
  rewrite format_f_nonneg by apply Rabs_pos.
  apply fixed_numeral_minus_free.
Qed.

Lemma format_f_IZR (k : Z) (p : nat) :
  (0 <= k)%Z ->
  format_f (IZR k) p = fixed_numeral (k * 10 ^ Z.of_nat p) p.
Proof.
  intros Hk. rewrite format_f_nonneg by (apply IZR_le in Hk; exact Hk).
  rewrite pow_IZR, <- mult_IZR, round_half_even_IZR. reflexivity.
Qed.

(** C8. [complex_latex] shows the real part with [p] decimals, then the
    sign, which is "+" when [imag >= 0] and "-" otherwise, then [j] and
    [|imag|] with [p] decimals; the numeral after [j] never holds a minus
    sign, and the sign depends on [imag] alone.  A zero imaginary part,
    also when written [-0], gets "+". *)
Theorem complex_latex_sign_convention :
  (forall x y p,
      exists sign,
        complex_latex x y p =
          "\displaystyle " ++ format_f x p ++ "\ " ++ sign ++ "\ j"
            ++ format_f (Rabs y) p
        /\ (0 <= y -> sign = "+")
        /\ (y < 0 -> sign = "-")
        /\ fixed_point_numeral p (format_f x p)
        /\ fixed_point_numeral p (format_f (Rabs y) p)
        /\ minus_free (format_f (Rabs y) p) = true) /\
  (forall x p,
      complex_latex x (-0) p =
        "\displaystyle " ++ format_f x p ++ "\ +\ j" ++ format_f 0 p).
Proof.
  split.
  - intros x y p.
    exists (if Rle_dec 0 y then "+" else "-").
    split; [reflexivity |].
    destruct (Rle_dec 0 y);
      repeat split; try (intros; reflexivity || lra);
      auto using format_f_shape, format_f_abs_minus_free.
  - intros x p. unfold complex_latex.
    rewrite Ropp_0, Rabs_R0.
    destruct (Rle_dec 0 0) as [_ | H]; [reflexivity | lra].
Qed.

(** C9. [polar_latex] renders the arrow form "magnitude, angle sign,
    angle" and the exponential form "magnitude e^(j angle)", magnitude
    and angle each with [p] decimals, the angle followed by the degree
    marker exactly when the unit is degrees; for 5, 30, precision 3 and
    degrees the numerals are 5.000 and 30.000 with the degree marker. *)
Theorem polar_latex_shape :
  (forall mag ang p degrees,
      let suffix := if degrees : bool then "^\circ" else "" in
      polar_latex mag ang p degrees =
        ("\displaystyle " ++ format_f mag p ++ "\,\angle\,"
           ++ format_f ang p ++ suffix,
         "\displaystyle " ++ format_f mag p ++ "\,e^{j\,"
           ++ format_f ang p ++ suffix ++ "}")
      /\ fixed_point_numeral p (format_f mag p)
      /\ fixed_point_numeral p (format_f ang p)) /\
  polar_latex 5 30 3 true =
    ("\displaystyle 5.000\,\angle\,30.000^\circ",
     "\displaystyle 5.000\,e^{j\,30.000^\circ}").
Proof.
  split.
  - intros mag ang p degrees suffix. subst suffix.
    split; [| split; apply format_f_shape].
    unfold polar_latex.
    destruct degrees; rewrite ?string_app_assoc, ?string_app_nil_r;
      reflexivity.
  - unfold polar_latex.
    rewrite (format_f_IZR 5 3), (format_f_IZR 30 3) by lia.
    reflexivity.
Qed.

(** ** Runs of the script *)

Lemma latex_shown_app (a b : list ui_call) :
  latex_shown (a ++ b) = (latex_shown a ++ latex_shown b)%list.
Proof. apply flat_map_app. Qed.

Lemma written_app (a b : list ui_call) :
  written (a ++ b) = (written a ++ written b)%list.
Proof. apply flat_map_app. Qed.

Lemma warnings_shown_app (a b : list ui_call) :
  warnings_shown (a ++ b) = (warnings_shown a ++ warnings_shown b)%list.
Proof. apply flat_map_app. Qed.

Section ScriptProperties.

Variable py_float : string -> result R.

Lemma input_magnitude_log (text : string) :
  latex_shown (snd (input_magnitude py_float text)) = [] /\
  written (snd (input_magnitude py_float text)) = [].
Proof.
  unfold input_magnitude.
  destruct (py_float text) as [mag | []]; simpl; [| auto].
  destruct (Rle_dec mag 0); auto.
Qed.

Lemma phasor_plot_log (sb : Sidebar) (z : complex) :
  latex_shown (phasor_plot sb z) = [] /\
  written (phasor_plot sb z) = [] /\
  warnings_shown (phasor_plot sb z) = [].
Proof. unfold phasor_plot. destruct (show_plot sb); auto. Qed.

(** What a run in the mode Polar -> Rectangular leaves and shows. *)
Lemma script_polar_to_rectangular (d : bool) (p : nat) (sp w : bool)
      (mag_text ang_text : string) :
  let sb := Build_Sidebar PolarToRectangular d p sp w in
  let mag := fst (input_magnitude py_float mag_text) in
  let ang := input_float py_float ang_text in
  let xy := to_rect mag ang d in
  let disp_ang := if w then wrap_angle ang d else ang in
  let run := script py_float sb mag_text ang_text in
  fst run = {| v_mag := mag; v_ang := ang; v_x := fst xy; v_y := snd xy;
               v_z := Complex (fst xy) (snd xy) |} /\
  latex_shown (snd run) =
    [complex_latex (fst xy) (snd xy) p;
     fst (polar_latex mag disp_ang p d);
     snd (polar_latex mag disp_ang p d)] /\
  written (snd run) = [numeric_values sb (Complex (fst xy) (snd xy))] /\
  warnings_shown (snd run) =
    warnings_shown (snd (input_magnitude py_float mag_text)).
Proof.
  intros sb mag ang xy disp_ang run.
  pose proof (input_magnitude_log mag_text) as [Hl Hw].
  subst run. unfold script, inputs_and_compute, polar_to_rectangular.
  cbn [mode deg precision wrap sb].
  fold ang. fold disp_ang.
  destruct (input_magnitude py_float mag_text) as [m warning] eqn:Em.
  cbn [fst snd] in *. subst mag. cbn [to_rect polar_latex] in *.
  cbn [fst snd v_z].
  split; [reflexivity |].
  destruct (phasor_plot_log sb (Complex (fst xy) (snd xy)))
    as (Pl & Pw & Pg).
  subst xy. cbn [to_rect fst snd] in Pl, Pw, Pg.
  rewrite !latex_shown_app, !written_app, !warnings_shown_app.
  rewrite Hl, Hw, Pl, Pw, Pg.
  repeat split; try reflexivity.
  cbn [warnings_shown flat_map app]. now rewrite !app_nil_r.
Qed.

(** What a run in the mode Rectangular -> Polar leaves and shows. *)
Lemma script_rectangular_to_polar (d : bool) (p : nat) (sp w : bool)
      (x_text y_text : string) :
  let sb := Build_Sidebar RectangularToPolar d p sp w in
  let x := input_float py_float x_text in
  let y := input_float py_float y_text in
  let mag := fst (to_polar x y d) in
  let ang0 := snd (to_polar x y d) in
  let ang := if w then wrap_angle ang0 d else ang0 in
  let run := script py_float sb x_text y_text in
  fst run = {| v_mag := mag; v_ang := ang; v_x := x; v_y := y;
               v_z := Complex x y |} /\
  latex_shown (snd run) =
    [fst (polar_latex mag ang p d);
     snd (polar_latex mag ang p d);
     complex_latex x y p] /\
  written (snd run) = [numeric_values sb (Complex x y)].
Proof.
  intros sb x y mag ang0 ang run.
  subst run. unfold script, inputs_and_compute, rectangular_to_polar.
  cbn [mode deg precision wrap sb].
  fold x. fold y.
  destruct (to_polar x y d) as [m a0] eqn:Ep.
  cbn [fst snd] in *. subst mag ang0. fold ang.
  cbn [polar_latex fst snd v_z].
  split; [reflexivity |].
  destruct (phasor_plot_log sb (Complex x y)) as (Pl & Pw & _).
  rewrite !latex_shown_app, !written_app, Pl, Pw.
  split; reflexivity.
Qed.




End ScriptProperties.

(** ** Texts read by [read_decimal] *)


Lemma read_decimal_value (s : string) (negative : bool) (body : string)
      (m : Z) (k : nat) (v : R) :
  match s with
  | String "-" s' => (true, s')
  | String "+" s' => (false, s')
  | _ => (false, s)
  end = (negative, body) ->
  scan_decimal body 0 0 None = Some (m, k) ->
  IZR (if negative then - m else m) / 10 ^ k = v ->
  read_decimal s = Ok v.
Proof.
  intros Hs Hb Hv. unfold read_decimal. rewrite Hs, Hb, Hv. reflexivity.
Qed.

Lemma read_decimal_5_0 : read_decimal "5.0" = Ok 5.
Proof.
  apply (read_decimal_value _ false "5.0" 50 1);
    [reflexivity | vm_compute; reflexivity | simpl; lra].
Qed.

Lemma read_decimal_390 : read_decimal "390" = Ok 390.
Proof.
  apply (read_decimal_value _ false "390" 390 0);
    [reflexivity | vm_compute; reflexivity | simpl; lra].
Qed.

Lemma read_decimal_minus_1 : read_decimal "-1" = Ok (-1).
Proof.
  apply (read_decimal_value _ true "1" 1 0);
    [reflexivity | vm_compute; reflexivity | simpl; lra].
Qed.

Lemma read_decimal_minus_millionth :
  read_decimal "-0.000001" = Ok (- (1 / 10 ^ 6)).
Proof.
  apply (read_decimal_value _ true "0.000001" 1 6);
    [reflexivity | vm_compute; reflexivity | simpl; lra].
Qed.

Lemma degrees_range (a : R) :
  - PI < a <= PI -> -180 < Py.degrees a <= 180.
Proof.
  intros [Hlo Hhi]. unfold Py.degrees.
  pose proof PI_RGT_0 as Hpi.
  assert (Hk : 0 < 180 / PI) by (apply Rdiv_lt_0_compat; lra).
  assert (Hpk : PI * (180 / PI) = 180) by (field; lra).
  split; nra.
Qed.

Lemma angle_in_unit_range (sb : Sidebar) (z : complex) :
  if deg sb then -180 < angle_in_unit sb z <= 180
  else - PI < angle_in_unit sb z <= PI.
Proof.
  unfold angle_in_unit, np_angle.
  pose proof (atan2_range (imag z) (real z)) as H.
  destruct (deg sb); [apply degrees_range |]; exact H.
Qed.

Section Sessions.

Variable py_float : string -> result R.















End Sessions.


(** ** The numeric summary *)

Lemma summary_angle_numeric_values (sb : Sidebar) (z : complex) :
  summary_angle (numeric_values sb z) =
  Py.round (angle_in_unit sb z) (precision sb + 2).
Proof. reflexivity. Qed.

Lemma script_written (py_float : string -> result R) (m : Mode)
      (d : bool) (p : nat) (sp w : bool) (t1 t2 : string) :
  let sb := Build_Sidebar m d p sp w in
  let run := script py_float sb t1 t2 in
  written (snd run) = [numeric_values sb (v_z (fst run))].
Proof.
  destruct m.
  - destruct (script_polar_to_rectangular py_float d p sp w t1 t2)
      as (E & _ & W & _).
    cbv zeta in *. rewrite W, E. reflexivity.
  - destruct (script_rectangular_to_polar py_float d p sp w t1 t2)
      as (E & _ & W).
    cbv zeta in *. rewrite W, E. reflexivity.
Qed.

Lemma script_z_wrap (py_float : string -> result R) (m : Mode)
      (d : bool) (p : nat) (sp w w' : bool) (t1 t2 : string) :
  v_z (fst (script py_float (Build_Sidebar m d p sp w) t1 t2)) =
  v_z (fst (script py_float (Build_Sidebar m d p sp w') t1 t2)).
Proof.
  destruct m.
  - destruct (script_polar_to_rectangular py_float d p sp w t1 t2)
      as (E & _).
    destruct (script_polar_to_rectangular py_float d p sp w' t1 t2)
      as (E' & _).
    cbv zeta in *. rewrite E, E'. reflexivity.
  - destruct (script_rectangular_to_polar py_float d p sp w t1 t2)
      as (E & _).
    destruct (script_rectangular_to_polar py_float d p sp w' t1 t2)
      as (E' & _).
    cbv zeta in *. rewrite E, E'. reflexivity.
Qed.

(** The angle of a point in the open right half-plane, given in polar
    form. *)
Lemma atan2_of_polar (mag theta : R) :
  0 < mag -> - (PI / 2) < theta < PI / 2 ->
  Py.atan2 (mag * sin theta) (mag * cos theta) = theta.
Proof.
  intros Hm Ht.
  assert (Hc : 0 < cos theta) by (apply cos_gt_0; lra).
  rewrite atan2_right_half by nra.
  replace (mag * sin theta / (mag * cos theta)) with (tan theta)
    by (unfold tan; field; lra).
  apply atan_tan. exact Ht.
Qed.

Lemma to_rect_390 (mag : R) :
  to_rect mag 390 true = (mag * cos (PI / 6), mag * sin (PI / 6)).
Proof.
  unfold to_rect, Py.radians.
  replace (390 * (PI / 180)) with (PI / 6 + 2 * PI) by lra.
  rewrite cos_plus, sin_plus, cos_2PI, sin_2PI.
  f_equal; ring.
Qed.

(** C10 as stated fails: the shown angle can be -180, which the range
    (-180, 180] excludes.  Here the summary rounds an angle just above
    -180 degrees to [precision + 2] decimals: mode Rectangular -> Polar,
    degrees, precision 0, real part "-1", imaginary part "-0.000001".
    (In binary64 [np.angle(z)] is [-pi] itself, -180.0 in degrees, for
    [z] just below the negative real axis, as [z] from [to_rect(1, -180)],
    or with the imaginary part [-0.0]: the lower end is reached without
    any rounding by [round], too.) *)
Lemma summary_angle_shown_as_minus_180 :
  let sb := Build_Sidebar RectangularToPolar true 0 true true in
  let run := script read_decimal sb "-1" "-0.000001" in
  exists a,
    map summary_angle (written (snd run)) = [a] /\
    a = -180 /\ ~ (-180 < a <= 180).
Proof.
  intros sb run. exists (-180).
  split; [| split; [reflexivity | lra]].
  subst run sb.
  rewrite (script_written read_decimal RectangularToPolar true 0 true true).
  destruct (script_rectangular_to_polar read_decimal true 0 true true
              "-1" "-0.000001") as (E & _).
  cbv zeta in E. rewrite E. cbn [v_z map].
  rewrite summary_angle_numeric_values.
  unfold input_float.
  rewrite read_decimal_minus_1, read_decimal_minus_millionth.
  unfold angle_in_unit, np_angle. cbn [deg precision real imag Nat.add].
  f_equal. unfold Py.round.
  set (y := - (1 / 10 ^ 6)).
  assert (Hy : y = - (1 / 10 ^ 6)) by reflexivity.
  assert (Hat : Py.atan2 y (-1) = atan (1 / 10 ^ 6) - PI).
  { unfold Py.atan2.
    destruct (Rlt_dec 0 (-1)) as [H | _]; [lra |].
    destruct (Rlt_dec (-1) 0) as [_ | H]; [| lra].
    destruct (Rle_dec 0 y) as [H | _]; [lra |].
    f_equal. f_equal. rewrite Hy. field. }
  rewrite Hat.
  pose proof (atan_pos (1 / 10 ^ 6)) as Hpos.
  pose proof (atan_lipschitz 0 (1 / 10 ^ 6)) as Hlip.
  rewrite atan_0, !Rminus_0_r in Hlip.
  rewrite !Rabs_pos_eq in Hlip by lra.
  pose proof PI_RGT_0 as Hpi.
  pose proof degrees_per_radian as Hk.
  assert (Hd : Py.degrees (atan (1 / 10 ^ 6) - PI)
               = atan (1 / 10 ^ 6) * (180 / PI) - 180)
    by (unfold Py.degrees; field; lra).
  rewrite Hd.
  set (t := atan (1 / 10 ^ 6)) in *.
  assert (Ht : 0 < t * (180 / PI) < 1 / 10 ^ 4) by (split; nra).
  rewrite (round_half_even_near _ (-18000)).
  - lra.
  - lra.
Qed.

Lemma round_half_even_le (x : R) (k : Z) :
  x <= IZR k -> (Py.round_half_even x <= k)%Z.
Proof.
  intros Hx. unfold Py.round_half_even.
  pose proof (Zfloor_bound x) as [Hlo Hhi].
  assert (Hf : (Zfloor x <= k)%Z) by (apply le_IZR; lra).
  destruct (Rlt_dec (x - IZR (Zfloor x)) (1 / 2)) as [Hd | Hd]; [exact Hf |].
  assert (Hlt : (Zfloor x < k)%Z).
  { apply lt_IZR. lra. }
  destruct (Rlt_dec (1 / 2) (x - IZR (Zfloor x))); [lia |].
  destruct (Z.even (Zfloor x)); lia.
Qed.

Lemma round_half_even_ge (x : R) (k : Z) :
  IZR k <= x -> (k <= Py.round_half_even x)%Z.
Proof.
  intros Hx. unfold Py.round_half_even.
  assert (Hf : (k <= Zfloor x)%Z) by (apply Zfloor_lub; exact Hx).
  destruct (Rlt_dec (x - IZR (Zfloor x)) (1 / 2)); [exact Hf |].
  destruct (Rlt_dec (1 / 2) (x - IZR (Zfloor x))); [lia |].
  destruct (Z.even (Zfloor x)); lia.
Qed.

(** [round] does not leave an interval whose ends are whole numbers. *)
Lemma round_between (x : R) (n : nat) (lo hi : Z) :
  IZR lo <= x <= IZR hi -> IZR lo <= Py.round x n <= IZR hi.
Proof.
  intros [Hlo Hhi]. unfold Py.round.
  assert (Hp : 0 < 10 ^ n) by (apply pow_lt; lra).
  assert (Hs : 10 ^ n = IZR (10 ^ Z.of_nat n)) by (rewrite pow_IZR; reflexivity).
  assert (H1 : (lo * 10 ^ Z.of_nat n <= Py.round_half_even (x * 10 ^ n))%Z).
  { apply round_half_even_ge. rewrite mult_IZR, <- Hs. nra. }
  assert (H2 : (Py.round_half_even (x * 10 ^ n) <= hi * 10 ^ Z.of_nat n)%Z).
  { apply round_half_even_le. rewrite mult_IZR, <- Hs. nra. }
  apply IZR_le in H1, H2. rewrite mult_IZR, <- Hs in H1, H2.
  set (k := IZR (Py.round_half_even (x * 10 ^ n))) in *.
  split.
  - apply Rmult_le_reg_r with (10 ^ n); [exact Hp |].
    unfold Rdiv. rewrite Rmult_assoc, Rinv_l by lra. lra.
  - apply Rmult_le_reg_r with (10 ^ n); [exact Hp |].
    unfold Rdiv. rewrite Rmult_assoc, Rinv_l by lra. lra.
Qed.

(** Magnitudes between 1e-300 and 1e300: no product, sum or root of the
    conversion underflows or overflows in binary64. *)
Lemma mid_range_5 : 1 / 10 ^ 300 <= 5 <= 10 ^ 300.
Proof.
  assert (H1 : 10 ^ 1 <= 10 ^ 300) by (apply Rle_pow; [lra | lia]).
  rewrite pow_1 in H1.
  split; [| lra].
  apply Rmult_le_reg_r with (10 ^ 300); [lra |].
  unfold Rdiv. rewrite Rmult_assoc, Rinv_l by lra. lra.
Qed.

(** C10, amended.  The angle of the numeric summary is [np.angle(z)] in
    the chosen unit, rounded to [precision + 2] decimals: it is computed
    from [z] alone, so neither the wrap setting nor the angle the user
    typed enters it, and it is the angle the plot annotation starts from
    before the display wrap.  Before the rounding the angle lies in the
    closed range [-pi, pi] radians, [-180, 180] degrees; the shown value
    is within one unit of its last decimal of it and, in degrees, lies
    in [-180, 180] as well.  The ranges are closed at the lower end
    because that end is reached, by the rounding of [round] and, in
    binary64, by [np.angle] itself.  For parts of [z] up to 1e300 in
    absolute value (beyond, [abs(z)] can overflow) the summary shows the
    dictionary of this [z].  With a magnitude between 1e-300 and 1e300
    and a precision of at most 6 (the slider's range), a user angle of
    390 degrees is shown as 30 in the mode Polar -> Rectangular,
    whatever the wrap setting. *)
Theorem summary_angle_principal (py_float : string -> result R)
        (p : nat) (sp w : bool) (t1 t2 : string) :
  (forall (m : Mode) (d : bool) (z : complex),
      let sb := Build_Sidebar m d p sp w in
      let a := angle_in_unit sb z in
      let shown := summary_angle (numeric_values sb z) in
      shown = Py.round a (p + 2) /\
      Rabs (shown - a) <= 1 / 10 ^ (p + 2) /\
      (if d then -180 <= a <= 180 /\ -180 <= shown <= 180
       else - PI <= a <= PI) /\
      ang_disp sb z = (if w then wrap_angle a d else a) /\
      (forall w', numeric_values (Build_Sidebar m d p sp w') z
                  = numeric_values sb z)) /\
  (forall (m : Mode) (d : bool),
      let sb := Build_Sidebar m d p sp w in
      let run := script py_float sb t1 t2 in
      let z := v_z (fst run) in
      (forall w',
          v_z (fst (script py_float (Build_Sidebar m d p sp w') t1 t2)) = z) /\
      (Rabs (real z) <= 10 ^ 300 -> Rabs (imag z) <= 10 ^ 300 ->
       written (snd run) = [numeric_values sb z])) /\
  (forall mag,
      (p <= 6)%nat -> 1 / 10 ^ 300 <= mag <= 10 ^ 300 ->
      py_float t1 = Ok mag -> py_float t2 = Ok 390 ->
      let sb := Build_Sidebar PolarToRectangular true p sp w in
      map summary_angle (written (snd (script py_float sb t1 t2))) = [30]).
Proof.
  split; [| split].
  - intros m d z sb a shown.
    assert (Hp : 0 < 10 ^ (p + 2)) by (apply pow_lt; lra).
    split; [reflexivity |].
    split.
    { apply Rle_trans with (1 / 2 / 10 ^ (p + 2)); [apply round_error |].
      apply Rmult_le_compat_r; [left; apply Rinv_0_lt_compat; exact Hp | lra]. }
    split.
    { pose proof (angle_in_unit_range sb z) as Hr. fold a in Hr.
      change (deg sb) with d in Hr.
      destruct d; [| lra].
      split; [lra |].
      apply (round_between a (p + 2) (-180) 180). lra. }
    split; [reflexivity |].
    intros w'. reflexivity.
  - intros m d sb run z. split.
    + intros w'. apply script_z_wrap.
    + intros _ _. apply script_written.
  - intros mag _ [Hmag _] H1 H2 sb. subst sb.
    assert (Hpos : 0 < mag).
    { assert (H : 0 < 1 / 10 ^ 300)
        by (apply Rdiv_lt_0_compat; [lra | apply pow_lt; lra]).
      lra. }
    rewrite (script_written py_float PolarToRectangular true p sp w).
    destruct (script_polar_to_rectangular py_float true p sp w t1 t2)
      as (E & _).
    cbv zeta in E. rewrite E. cbn [v_z map].
    rewrite summary_angle_numeric_values.
    unfold input_magnitude, input_float. rewrite H1, H2. cbn [fst].
    rewrite to_rect_390. cbn [fst snd precision].
    unfold angle_in_unit, np_angle. cbn [deg real imag].
    rewrite atan2_of_polar; [| exact Hpos | pose proof PI_RGT_0; lra].
    replace (Py.degrees (PI / 6)) with (IZR 30)
      by (unfold Py.degrees; pose proof PI_RGT_0; field; lra).
    rewrite round_IZR. reflexivity.
Qed.

(** For C10: magnitude text "5.0" and angle text "390", wrapping off. *)
Lemma summary_angle_principal_390 :
  (3 <= 6)%nat /\
  1 / 10 ^ 300 <= 5 <= 10 ^ 300 /\
  read_decimal "5.0" = Ok 5 /\
  read_decimal "390" = Ok 390 /\
  map summary_angle
      (written
         (snd (script read_decimal
                      (Build_Sidebar PolarToRectangular true 3 true false)
                      "5.0" "390"))) = [30].
Proof.
  split; [lia |].
  split; [exact mid_range_5 |].
  split; [exact read_decimal_5_0 |].
  split; [exact read_decimal_390 |].
  apply (proj2 (proj2 (summary_angle_principal read_decimal 3 true false
                         "5.0" "390")) 5);
    [lia | exact mid_range_5 | exact read_decimal_5_0
     | exact read_decimal_390].
Defined.

(** * Further properties of the helpers and of the script *)

(** ** A negative magnitude in [to_rect] *)

(** X4. Negating the magnitude negates both parts of the rectangular
    form: the point is mirrored in the origin.  (Exact in binary64 too,
    where negation is exact and commutes with the product.)  With floats
    read as real numbers the mirrored point is the positive magnitude
    half a turn further: [to_rect (-mag) ang] is [to_rect mag (ang + 180)]
    in degrees, [to_rect mag (ang + pi)] in radians.  That second
    equation is one of exact arithmetic: in binary64 the sum [ang + 180]
    and the products are rounded, so [to_rect(-5, 30)] and
    [to_rect(5, 210)] differ in the last digit, and by more the larger
    [|ang|] is. *)
Theorem to_rect_negative_magnitude (mag ang : R) (degrees : bool) :
  to_rect (- mag) ang degrees
  = (- fst (to_rect mag ang degrees), - snd (to_rect mag ang degrees)) /\
  to_rect (- mag) ang degrees
  = to_rect mag (ang + half_period degrees) degrees.
Proof.
  unfold to_rect. cbn [fst snd].
  split; [f_equal; ring |].
  destruct degrees; cbn [half_period].
  - replace (Py.radians (ang + 180)) with (Py.radians ang + PI)
      by (unfold Py.radians; pose proof PI_RGT_0; field; lra).
    rewrite neg_cos, neg_sin. f_equal; ring.
  - rewrite neg_cos, neg_sin. f_equal; ring.
Qed.

(** ** The magnitude of a point given in polar form *)


(** ** The magnitude warning *)

Lemma read_decimal_0 : read_decimal "0" = Ok 0.
Proof.
  apply (read_decimal_value _ false "0" 0 0);
    [reflexivity | vm_compute; reflexivity | simpl; lra].
Qed.

Lemma script_rectangular_to_polar_warnings
      (py_float : string -> result R) (sb : Sidebar)
      (x_text y_text : string) :
  warnings_shown (snd (rectangular_to_polar py_float sb x_text y_text)) = [].
Proof.
  unfold rectangular_to_polar, to_polar, polar_latex.
  destruct (deg sb); reflexivity.
Qed.

Lemma script_warnings (py_float : string -> result R) (sb : Sidebar)
      (t1 t2 : string) :
  warnings_shown (snd (script py_float sb t1 t2)) =
  warnings_shown (snd (inputs_and_compute py_float sb t1 t2)).
Proof.
  unfold script.
  destruct (inputs_and_compute py_float sb t1 t2) as [vars shown].
  cbn [snd]. rewrite !warnings_shown_app.
  rewrite (proj2 (proj2 (phasor_plot_log sb (v_z vars)))).
  cbn [warnings_shown flat_map app]. now rewrite app_nil_r.
Qed.

(** X7. The magnitude warning is shown exactly when the magnitude text
    parses to a number that is zero or negative, and only in the mode
    Polar -> Rectangular.  A text that does not parse gives no warning,
    although 0.0 then stands for the magnitude; and a warned magnitude is
    used as it is, sign included. *)
Theorem magnitude_warning_shown
        (py_float : string -> result R)
        (d : bool) (p : nat) (sp w : bool) (mag_text ang_text : string) :
  let P := script py_float (Build_Sidebar PolarToRectangular d p sp w)
                  mag_text ang_text in
  let Q := script py_float (Build_Sidebar RectangularToPolar d p sp w)
                  mag_text ang_text in
  (warnings_shown (snd P) = [magnitude_warning] <->
   exists mag, py_float mag_text = Ok mag /\ mag <= 0) /\
  (warnings_shown (snd P) = [] <->
   ~ exists mag, py_float mag_text = Ok mag /\ mag <= 0) /\
  (py_float mag_text = Raise ValueError -> warnings_shown (snd P) = []) /\
  warnings_shown (snd Q) = [] /\
  (forall mag,
      py_float mag_text = Ok mag ->
      v_mag (fst P) = mag /\
      (v_x (fst P), v_y (fst P))
      = to_rect mag (input_float py_float ang_text) d).
Proof.
  intros P Q.
  destruct (script_polar_to_rectangular py_float d p sp w mag_text ang_text)
    as (E & _ & _ & W).
  cbv zeta in E, W. subst P Q.
  rewrite W, E, script_warnings. cbn [v_mag v_x v_y].
  unfold inputs_and_compute. cbn [mode].
  rewrite script_rectangular_to_polar_warnings.
  unfold input_magnitude.
  destruct (py_float mag_text) as [m | []] eqn:Em; cbn [fst snd] in *.
  - destruct (Rle_dec m 0) as [Hm | Hm];
      cbn [warnings_shown flat_map app].
    + split; [| split; [| split; [| split]]].
      * split; [| reflexivity].
        intros _. exists m. split; [reflexivity | exact Hm].
      * split; [discriminate |].
        intros H. exfalso. apply H. exists m. split; [reflexivity | exact Hm].
      * discriminate.
      * reflexivity.
      * intros m' Hm'. injection Hm' as <-. split; reflexivity.
    + split; [| split; [| split; [| split]]].
      * split; [discriminate |].
        intros (m' & Hm' & Hle). injection Hm' as <-. lra.
      * split; [| reflexivity].
        intros _ (m' & Hm' & Hle). injection Hm' as <-. lra.
      * discriminate.
      * reflexivity.
      * intros m' Hm'. injection Hm' as <-. split; reflexivity.
  - cbn [warnings_shown flat_map app].
    split; [| split; [| split; [| split]]].
    + split; [discriminate |]. intros (m' & Hm' & _). discriminate Hm'.
    + split; [| reflexivity]. intros _ (m' & Hm' & _). discriminate Hm'.
    + reflexivity.
    + reflexivity.
    + intros m' Hm'. discriminate Hm'.
Qed.

(** ** A negative magnitude in the mode Polar -> Rectangular *)





(** For X7: the magnitude text "0" is warned about. *)
Lemma magnitude_warning_shown_0 :
  (exists mag, read_decimal "0" = Ok mag /\ mag <= 0) /\
  warnings_shown
    (snd (script read_decimal
                 (Build_Sidebar PolarToRectangular true 3 true true)
                 "0" "30.0")) = [magnitude_warning].
Proof.
  assert (H : exists mag, read_decimal "0" = Ok mag /\ mag <= 0)
    by (exists 0; split; [exact read_decimal_0 | lra]).
  split; [exact H |].
  apply (proj1 (magnitude_warning_shown read_decimal true 3 true true
                  "0" "30.0")).
  exact H.
Defined.

(** ** The magnitude of [to_polar] and the sign of [complex_latex] *)

(** X11. The magnitude [to_polar] returns is never negative, is at least
    as large as each coordinate in absolute value, and is zero only for
    the zero vector. *)
Theorem to_polar_magnitude (x y : R) (degrees : bool) :
  let mag := fst (to_polar x y degrees) in
  0 <= mag /\
  Rabs x <= mag /\
  Rabs y <= mag /\
  (mag = 0 <-> x = 0 /\ y = 0).
Proof.
  intros mag.
  assert (E : mag = sqrt (x * x + y * y))
    by (subst mag; unfold to_polar, Py.hypot; destruct degrees; reflexivity).
  rewrite E. clear E mag.
  assert (Hs : 0 <= x * x + y * y) by nra.
  pose proof (sqrt_pos (x * x + y * y)) as Hp.
  pose proof (sqrt_sqrt _ Hs) as Hq.
  set (r := sqrt (x * x + y * y)) in *.
  split; [exact Hp |].
  split; [apply Rabs_le; split; nra |].
  split; [apply Rabs_le; split; nra |].
  split.
  - intros E. rewrite E in Hq. split; nra.
  - intros [-> ->]. nra.
Qed.

(** X12. For a positive imaginary part, [complex_latex] of a number and
    of its conjugate differ in the sign character only: "+" for the
    number, "-" for the conjugate, around the same two numerals. *)
Theorem complex_latex_conjugate (x y : R) (p : nat) :
  0 < y ->
  let before := "\displaystyle " ++ format_f x p ++ "\ " in
  let after := "\ j" ++ format_f y p in
  complex_latex x y p = before ++ "+" ++ after /\
  complex_latex x (- y) p = before ++ "-" ++ after.
Proof.
  intros Hy before after. subst before after. unfold complex_latex.
  rewrite Rabs_Ropp, (Rabs_pos_eq y) by lra.
  destruct (Rle_dec 0 y) as [_ | H]; [| lra].
  destruct (Rle_dec 0 (- y)) as [H | _]; [lra |].
  rewrite !string_app_assoc. split; reflexivity.
Qed.

(** For X12: the imaginary part 2.5. *)
Lemma complex_latex_conjugate_2_5 :
  0 < 2.5 /\
  complex_latex 4.33 (- (2.5)) 3 =
    ("\displaystyle " ++ format_f 4.33 3 ++ "\ ") ++ "-"
      ++ "\ j" ++ format_f 2.5 3.
Proof.
  assert (H : 0 < 2.5) by lra.
  split; [exact H |].
  pose proof (complex_latex_conjugate 4.33 2.5 3 H) as K.
  cbv zeta in K. exact (proj2 K).
Defined.


